(** * shawnaiutils.callbacks: the standard Keras callback list

    A shallow embedding of [src/shawnaiutils/callbacks.py].  The module has
    one function, [standard_callbacks]; it reads the clock, creates two
    directories, builds five Keras callback objects, prints three status
    texts and returns the callbacks in a list.

    Python [str] values are byte strings here ([String.string], UTF-8).  The
    string operations the function applies are concatenation, [str.lower],
    the substring test [in] against four ASCII keywords and [os.path.join]
    (POSIX flavour, separator [/]).  Paths are compared as strings: two
    different strings may still name one directory. *)

From Stdlib Require Import String Ascii List Bool Arith ZArith Lia.
From Stdlib Require Import Floats.PrimFloat.
Import ListNotations.

Set Implicit Arguments.
(* [1e-6] is read as the nearest binary64 value, as Python reads it. *)
Set Warnings "-inexact-float".

Local Open Scope string_scope.

(** ** Python string primitives *)

Module Str.

(** [c.lower()] on one byte: [A]..[Z] move to [a]..[z], the rest stays.
    [str.lower] also changes letters outside ASCII; their UTF-8 bytes are
    all above 127 before and after, so they never make or break an
    occurrence of an ASCII keyword, which is all line 27 asks of the
    lower-cased monitor. *)
Definition lower_ascii (c : ascii) : ascii :=
  let n := nat_of_ascii c in
  if ((65 <=? n) && (n <=? 90))%nat then ascii_of_nat (n + 32) else c.

(** [s.lower()] *)
Fixpoint lower (s : string) : string :=
  match s with
  | EmptyString => EmptyString
  | String c s' => String (lower_ascii c) (lower s')
  end.

(** [s.startswith(k)] *)
Fixpoint startswith (s k : string) {struct k} : bool :=
  match k, s with
  | EmptyString, _ => true
  | String _ _, EmptyString => false
  | String a k', String b s' => Ascii.eqb a b && startswith s' k'
  end.

(** [k in s]: [k] occurs in [s] at some offset. *)
Fixpoint contains (k s : string) : bool :=
  startswith s k ||
  match s with
  | EmptyString => false
  | String _ s' => contains k s'
  end.

(** The last character of [s], if any. *)
Fixpoint last (s : string) : option ascii :=
  match s with
  | EmptyString => None
  | String c EmptyString => Some c
  | String _ s' => last s'
  end.

(** [s.endswith(c)] for a one-character [c]. *)
Definition endswith_char (s : string) (c : ascii) : bool :=
  match last s with
  | Some d => Ascii.eqb d c
  | None => false
  end.

(** [s.count(c)] for a one-character [c]. *)
Fixpoint count (c : ascii) (s : string) : nat :=
  match s with
  | EmptyString => 0
  | String d s' => ((if Ascii.eqb d c then 1 else 0) + count c s')%nat
  end.

Definition is_empty (s : string) : bool :=
  match s with EmptyString => true | _ => false end.

End Str.

(** ** [os.path] (posixpath) *)

Module os_path.

Definition sep : ascii := "/"%char.

(** One round of the loop in [posixpath.join]: an absolute component
    replaces what was joined so far; otherwise it is appended, with a
    separator unless the path so far is empty or already ends in one. *)
Definition join_step (path b : string) : string :=
  if Str.startswith b (String sep "") then b
  else if Str.is_empty path || Str.endswith_char path sep then path ++ b
  else path ++ String sep b.

(** [os.path.join(a, *p)] *)
Definition join (a : string) (p : list string) : string :=
  fold_left join_step p a.

End os_path.

(** ** [datetime] *)

Module datetime.

(** The fields of a [datetime.datetime] value. *)
Record t : Type := mk {
  year : nat; month : nat; day : nat;
  hour : nat; minute : nat; second : nat;
  microsecond : nat
}.

Definition digit (n : nat) : ascii := ascii_of_nat (48 + n mod 10).

(** Zero-padded decimal of width two ([%m], [%d], [%H], [%M], [%S]). *)
Definition pad2 (n : nat) : string :=
  String (digit (n / 10)) (String (digit n) "").

(** Zero-padded decimal of width four ([%Y]). *)
Definition pad4 (n : nat) : string :=
  String (digit (n / 1000)) (String (digit (n / 100)) (pad2 n)).

(** [d.strftime('%Y%m%d_%H%M%S')] *)
Definition strftime_Ymd_HMS (d : t) : string :=
  pad4 (year d) ++ pad2 (month d) ++ pad2 (day d) ++ "_" ++
  pad2 (hour d) ++ pad2 (minute d) ++ pad2 (second d).

End datetime.

(** ** [keras.callbacks]

    Each callback object is the record of the keyword arguments its
    constructor is called with.  [mode] is the string the code passes,
    ['max'] or ['min']. *)

Module ModelCheckpoint.
Record t : Type := mk {
  filepath : string; monitor : string; mode : string;
  save_best_only : bool; save_weights_only : bool; verbose : Z
}.
End ModelCheckpoint.

Module EarlyStopping.
Record t : Type := mk {
  monitor : string; patience : Z; mode : string;
  restore_best_weights : bool; verbose : Z
}.
End EarlyStopping.

Module ReduceLROnPlateau.
Record t : Type := mk {
  monitor : string; factor : float; patience : Z; min_lr : float;
  mode : string; verbose : Z
}.
End ReduceLROnPlateau.

Module TensorBoard.
Record t : Type := mk {
  log_dir : string; histogram_freq : Z; write_graph : bool;
  update_freq : string
}.
End TensorBoard.

Module CSVLogger.
Record t : Type := mk {
  filename : string; append : bool; separator : string
}.
End CSVLogger.

Inductive callback : Type :=
| Checkpoint (c : ModelCheckpoint.t)
| EarlyStop (c : EarlyStopping.t)
| ReduceLR (c : ReduceLROnPlateau.t)
| MetricLog (c : TensorBoard.t)
| CsvLog (c : CSVLogger.t).

Inductive kind : Type :=
| KCheckpoint | KEarlyStop | KReduceLR | KMetricLog | KCsvLog.

Definition kind_of (c : callback) : kind :=
  match c with
  | Checkpoint _ => KCheckpoint
  | EarlyStop _ => KEarlyStop
  | ReduceLR _ => KReduceLR
  | MetricLog _ => KMetricLog
  | CsvLog _ => KCsvLog
  end.

(** ** Programs with effects

    The function talks to its environment three ways: it reads the clock
    ([datetime.now()]), asks for directories ([os.makedirs]) and writes to
    standard output ([print]).  A program is the tree of these requests. *)

Inductive io (A : Type) : Type :=
| Return (a : A)
| Datetime_now (k : datetime.t -> io A)
| Os_makedirs (name : string) (exist_ok : bool) (k : io A)
| Print (text : string) (k : io A).

Arguments Return {A} a.
Arguments Datetime_now {A} k.
Arguments Os_makedirs {A} name exist_ok k.
Arguments Print {A} text k.

Fixpoint bind {A B : Type} (m : io A) (f : A -> io B) : io B :=
  match m with
  | Return a => f a
  | Datetime_now k => Datetime_now (fun d => bind (k d) f)
  | Os_makedirs name e k => Os_makedirs name e (bind k f)
  | Print text k => Print text (bind k f)
  end.

Definition datetime_now : io datetime.t := Datetime_now (fun d => Return d).
Definition os_makedirs (name : string) (exist_ok : bool) : io unit :=
  Os_makedirs name exist_ok (Return tt).
Definition print (text : string) : io unit := Print text (Return tt).

Declare Scope io_scope.
Delimit Scope io_scope with io.
Notation "x <- m ;; k" := (bind m (fun x => k))
  (at level 61, m at next level, right associativity) : io_scope.
Notation "m ;; k" := (bind m (fun _ => k))
  (at level 61, right associativity) : io_scope.

(** ** [standard_callbacks] *)

Definition esc : string := String "027"%char "".
Definition newline : ascii := "010"%char.

(** The keywords of line 27. *)
Definition keywords : list string := ["acc"; "auc"; "precision"; "recall"].

(** Lines 26-30: the mode derived from the monitored metric's name. *)
Definition mode (monitor : string) : string :=
  let monitor_lower := Str.lower monitor in
  if existsb (fun k => Str.contains k monitor_lower) keywords
  then "max" else "min".

(** Line 18. *)
Definition run_dir (run_name timestamp : string) : string :=
  os_path.join "runs" [run_name ++ "_" ++ timestamp].

(** Lines 22-24. *)
Definition checkpoint_path (run_dir : string) : string :=
  os_path.join run_dir ["checkpoints"; "best_model.keras"].
Definition csv_path (run_dir run_name : string) : string :=
  os_path.join run_dir [run_name ++ "_training_log.csv"].
Definition tensorboard_log_dir (run_dir : string) : string :=
  os_path.join run_dir ["logs"].

Definition standard_callbacks
    (run_name monitor : string) (patience : Z) : io (list callback) :=
  (now <- datetime_now ;;
   let timestamp := datetime.strftime_Ymd_HMS now in
   let run_dir := run_dir run_name timestamp in
   os_makedirs (os_path.join run_dir ["checkpoints"]) true ;;
   os_makedirs (os_path.join run_dir ["logs"]) true ;;

   let checkpoint_path := checkpoint_path run_dir in
   let csv_path := csv_path run_dir run_name in
   let tensorboard_log_dir := tensorboard_log_dir run_dir in

   let mode := mode monitor in

   let checkpoint := ModelCheckpoint.mk
     checkpoint_path monitor mode true false 1 in
   let early_stop := EarlyStopping.mk
     monitor patience mode true 1 in
   let reduce_lr := ReduceLROnPlateau.mk
     monitor 0.5 3 1e-6 mode 1 in
   let tensorboard := TensorBoard.mk
     tensorboard_log_dir 1 true "epoch" in
   let csv_logger := CSVLogger.mk
     csv_path false "," in

   print (esc ++ "[92m[CALLBACKS]" ++ esc ++ "[0m Initialized for run: "
          ++ run_name) ;;
   print ("  → Logs: " ++ tensorboard_log_dir) ;;
   print ("  → Checkpoints: " ++ checkpoint_path) ;;

   Return [Checkpoint checkpoint; ReduceLR reduce_lr; EarlyStop early_stop;
           MetricLog tensorboard; CsvLog csv_logger])%io.

(** The call with every argument left at its default (line 5). *)
Definition standard_callbacks_default : io (list callback) :=
  standard_callbacks "default_run" "val_loss" 7.

(** ** Running a program against an operating system *)

Section Run.

(** The file system and its errors are the environment's: [makedirs] is
    whatever [os.makedirs(name, exist_ok=...)] does to a file system,
    either raising an [OSError] or leaving a new file system.  So is
    standard output: [print_fails text] is the error [print(text)] raises
    when the stream cannot take the text (an encoding that has no [→], a
    closed stream), if any. *)
Variables FS OSError PrintError : Type.
Variable makedirs : string -> bool -> FS -> OSError + FS.
Variable print_fails : string -> option PrintError.

Record world : Type := World {
  clock : datetime.t;
  fs : FS;
  stdout : string
}.

Inductive outcome (A : Type) : Type :=
| Returned (a : A)
| Raised (e : OSError)
| Print_raised (e : PrintError).

Arguments Returned {A} a.
Arguments Raised {A} e.
Arguments Print_raised {A} e.

(** An exception ends the run where it is raised; what was done to the
    world before stays done. *)
Fixpoint run {A : Type} (p : io A) (w : world) : outcome A * world :=
  match p with
  | Return a => (Returned a, w)
  | Datetime_now k => run (k (clock w)) w
  | Os_makedirs name exist_ok k =>
      match makedirs name exist_ok (fs w) with
      | inl e => (Raised e, w)
      | inr fs' => run k (World (clock w) fs' (stdout w))
      end
  | Print text k =>
      match print_fails text with
      | Some e => (Print_raised e, w)
      | None =>
          run k (World (clock w) (fs w)
                   (stdout w ++ text ++ String newline ""))
      end
  end.

End Run.

Arguments Returned {OSError PrintError A} a.
Arguments Raised {OSError PrintError A} e.
Arguments Print_raised {OSError PrintError A} e.
Arguments World {FS} clock fs stdout.


(** ** A small operating system to run programs on

    Directories and regular files are lists of names, compared as strings;
    creation is refused with a permission error for the names listed in
    [denied].  As [os.makedirs] does, [makedirs] creates the missing
    parents of the directory it is asked for, and fails on a name that is
    a regular file whatever [exist_ok] says.  It stands for the environment
    when the program is evaluated at concrete inputs. *)

Module SimOS.

Inductive OSError : Type :=
| PermissionError (filename : string)
| FileExistsError (filename : string)
| NotADirectoryError (filename : string).

Inductive PrintError : Type :=
| UnicodeEncodeError (text : string).

Record FS : Type := mkFS {
  dirs : list string;
  files : list string;
  denied : list string
}.

Definition mem (name : string) (l : list string) : bool :=
  existsb (String.eqb name) l.

Definition isdir (name : string) (f : FS) : bool := mem name (dirs f).

(** The proper prefixes of a path that end just before a separator, the
    shortest first: the directories above it. *)
Fixpoint parents_from (pre s : string) : list string :=
  match s with
  | EmptyString => []
  | String c s' =>
      ((if Ascii.eqb c os_path.sep && negb (Str.is_empty pre)
        then [pre] else [])
       ++ parents_from (pre ++ String c "") s')%list
  end.

Definition parents (name : string) : list string := parents_from "" name.

Definition makedirs (name : string) (exist_ok : bool) (f : FS)
    : OSError + FS :=
  if isdir name f then
    if exist_ok then inr f else inl (FileExistsError name)
  else if mem name (files f) then inl (FileExistsError name)
  else
    match find (fun d => mem d (files f)) (parents name) with
    | Some d => inl (NotADirectoryError d)
    | None =>
        let missing :=
          (filter (fun d => negb (isdir d f)) (parents name) ++ [name])%list
        in
        match find (fun d => mem d (denied f)) missing with
        | Some d => inl (PermissionError d)
        | None => inr (mkFS (missing ++ dirs f)%list (files f) (denied f))
        end
    end.

(** A standard output that takes any text (UTF-8), and one that takes
    ASCII only. *)
Definition utf8 (text : string) : option PrintError := None.


Definition exec {A : Type} (p : io A) (w : world FS)
    : outcome OSError PrintError A * world FS :=
  run makedirs utf8 p w.


(** 2024-01-01 00:00:00, and the same second a little later. *)
Definition new_year : datetime.t := datetime.mk 2024 1 1 0 0 0 0.
Definition new_year_later : datetime.t := datetime.mk 2024 1 1 0 0 0 500.

(** An empty file system at that instant, nothing printed yet. *)
Definition fresh : world FS := World new_year (mkFS [] [] []) "".

(** The same, with the log directory of [exp1] out of reach. *)
Definition locked : world FS :=
  World new_year (mkFS [] [] ["runs/exp1_20240101_000000/logs"]) "".

End SimOS.

(** ** What a program asks for, prints and returns

    Readings of a program tree at a clock value: the directory requests it
    makes, in order; the text it prints, whole and call by call; the value
    it returns when nothing raises. *)

Fixpoint requested {A : Type} (p : io A) (now : datetime.t)
    : list (string * bool) :=
  match p with
  | Return _ => []
  | Datetime_now k => requested (k now) now
  | Os_makedirs name exist_ok k => (name, exist_ok) :: requested k now
  | Print _ k => requested k now
  end.

Fixpoint printed {A : Type} (p : io A) (now : datetime.t) : string :=
  match p with
  | Return _ => ""
  | Datetime_now k => printed (k now) now
  | Os_makedirs _ _ k => printed k now
  | Print text k => text ++ String newline "" ++ printed k now
  end.

Fixpoint print_calls {A : Type} (p : io A) (now : datetime.t)
    : list string :=
  match p with
  | Return _ => []
  | Datetime_now k => print_calls (k now) now
  | Os_makedirs _ _ k => print_calls k now
  | Print text k => text :: print_calls k now
  end.

Fixpoint result {A : Type} (p : io A) (now : datetime.t) : A :=
  match p with
  | Return a => a
  | Datetime_now k => result (k now) now
  | Os_makedirs _ _ k => result k now
  | Print _ k => result k now
  end.

(** The number of lines in a text: its newline characters. *)
Definition lines (text : string) : nat := Str.count newline text.

Section RunFacts.

Variables FS OSError : Type.
Variable makedirs : string -> bool -> FS -> OSError + FS.

(** The requests of a list served in order, stopping at the first
    refusal. *)
Fixpoint makedirs_all (reqs : list (string * bool)) (f : FS)
    : OSError + FS :=
  match reqs with
  | [] => inr f
  | (name, exist_ok) :: rest =>
      match makedirs name exist_ok f with
      | inl e => inl e
      | inr f' => makedirs_all rest f'
      end
  end.

End RunFacts.

(** ** The claim of the specification on the direction

    A monitor names a score when one of the four keywords occurs in it,
    letter case aside.  Letter case is read off the alphabet, not off
    [Str.lower]: two characters are the same letter when they are equal or
    are the capital and the small form of one of the 26 letters. *)

Definition capitals : string := "ABCDEFGHIJKLMNOPQRSTUVWXYZ".
Definition smalls : string := "abcdefghijklmnopqrstuvwxyz".

Definition letter_pairs : list (ascii * ascii) :=
  combine (list_ascii_of_string capitals) (list_ascii_of_string smalls).

Definition same_letter (c d : ascii) : bool :=
  Ascii.eqb c d ||
  existsb (fun p => (Ascii.eqb c (fst p) && Ascii.eqb d (snd p)) ||
                    (Ascii.eqb c (snd p) && Ascii.eqb d (fst p)))
          letter_pairs.

Fixpoint same_letters (a b : string) : bool :=
  match a, b with
  | EmptyString, EmptyString => true
  | String c a', String d b' => same_letter c d && same_letters a' b'
  | _, _ => false
  end.

Definition same_ignoring_case (a b : string) : Prop :=
  same_letters a b = true.

Definition occurs_ignoring_case (k s : string) : Prop :=
  exists pre mid suf, s = pre ++ mid ++ suf /\ same_ignoring_case mid k.

Definition names_a_score (monitor : string) : Prop :=
  occurs_ignoring_case "acc" monitor \/
  occurs_ignoring_case "auc" monitor \/
  occurs_ignoring_case "precision" monitor \/
  occurs_ignoring_case "recall" monitor.

(** * Lemmas *)

(** ** Strings *)

Lemma append_nil_r (s : string) : s ++ "" = s.
Proof. induction s as [|c s IH]; simpl; [reflexivity | now rewrite IH]. Qed.

Lemma append_assoc (a b c : string) : (a ++ b) ++ c = a ++ b ++ c.
Proof. induction a as [|x a IH]; simpl; [reflexivity | now rewrite IH]. Qed.

Lemma lower_app (a b : string) :
  Str.lower (a ++ b) = Str.lower a ++ Str.lower b.
Proof. induction a as [|x a IH]; simpl; [reflexivity | now rewrite IH]. Qed.

(** A split of [lower s] comes from a split of [s]. *)
Lemma lower_split (p q s : string) :
  Str.lower s = p ++ q ->
  exists a b, s = a ++ b /\ Str.lower a = p /\ Str.lower b = q.
Proof.
  revert s; induction p as [|x p IH]; intros s H.
  - exists "", s. auto.
  - destruct s as [|c s]; simpl in H; [discriminate|].
    injection H as Hc Hs.
    destruct (IH _ Hs) as (a & b & -> & Ha & Hb).
    exists (String c a), b. simpl. now rewrite Hc, Ha.
Qed.

Lemma startswith_spec (s k : string) :
  Str.startswith s k = true <-> exists suf, s = k ++ suf.
Proof.
  revert s; induction k as [|a k IH]; intros s; simpl.
  - split; [intros _; now exists s | intros _; now destruct s].
  - destruct s as [|b s].
    + split; [discriminate | intros [suf H]; discriminate].
    + rewrite andb_true_iff, Ascii.eqb_eq, IH. split.
      * intros [-> [suf ->]]. now exists suf.
      * intros [suf H]. injection H as -> ->. split; [reflexivity | now exists suf].
Qed.

Lemma contains_spec (k s : string) :
  Str.contains k s = true <-> exists pre suf, s = pre ++ k ++ suf.
Proof.
  induction s as [|c s IH].
  - simpl. rewrite orb_false_r, startswith_spec. split.
    + intros [suf H]. now exists "", suf.
    + intros [[|x pre] [suf H]]; [now exists suf | discriminate].
  - change (Str.contains k (String c s))
      with (Str.startswith (String c s) k || Str.contains k s).
    rewrite orb_true_iff, startswith_spec, IH. split.
    + intros [[suf H] | (pre & suf & ->)].
      * now exists "", suf.
      * now exists (String c pre), suf.
    + intros [[|x pre] [suf H]].
      * left. now exists suf.
      * right. injection H as _ ->. now exists pre, suf.
Qed.

Lemma last_app (a b : string) : b <> "" -> Str.last (a ++ b) = Str.last b.
Proof.
  intros Hb. induction a as [|x a IH]; [reflexivity|].
  simpl. rewrite IH. destruct (a ++ b) eqn:E; [|reflexivity].
  destruct a; simpl in E; [contradiction | discriminate].
Qed.

Lemma count_app (c : ascii) (a b : string) :
  Str.count c (a ++ b) = Str.count c a + Str.count c b.
Proof. induction a as [|x a IH]; simpl; [reflexivity | rewrite IH; lia]. Qed.

(** ** Time stamps *)

Lemma digit_code (n : nat) : nat_of_ascii (datetime.digit n) = 48 + n mod 10.
Proof.
  unfold datetime.digit. apply nat_ascii_embedding.
  pose proof (Nat.mod_upper_bound n 10). lia.
Qed.

(** A digit differs from every character outside ['0'..'9']. *)
Lemma digit_eqb (n : nat) (c : ascii) :
  nat_of_ascii c < 48 \/ 57 < nat_of_ascii c ->
  Ascii.eqb (datetime.digit n) c = false.
Proof.
  intros Hc. apply Ascii.eqb_neq. intros E.
  pose proof (digit_code n) as Hd. rewrite E in Hd.
  pose proof (Nat.mod_upper_bound n 10). lia.
Qed.

Lemma digit_not_sep (n : nat) : Ascii.eqb (datetime.digit n) os_path.sep = false.
Proof. apply digit_eqb. left. vm_compute. lia. Qed.

Lemma digit_not_newline (n : nat) : Ascii.eqb (datetime.digit n) newline = false.
Proof. apply digit_eqb. left. vm_compute. lia. Qed.

Lemma strftime_last (d : datetime.t) :
  Str.last (datetime.strftime_Ymd_HMS d)
  = Some (datetime.digit (datetime.second d)).
Proof. reflexivity. Qed.

Lemma strftime_lines (d : datetime.t) :
  lines (datetime.strftime_Ymd_HMS d) = 0.
Proof.
  unfold lines, datetime.strftime_Ymd_HMS, datetime.pad4, datetime.pad2.
  cbn [append Str.count]. now rewrite !digit_not_newline.
Qed.

(** ** Paths *)

Lemma not_empty_or_sep (s : string) (c : ascii) :
  Str.last s = Some c -> Ascii.eqb c os_path.sep = false ->
  Str.is_empty s || Str.endswith_char s os_path.sep = false.
Proof.
  intros Hl Hc. unfold Str.endswith_char. rewrite Hl, Hc.
  destruct s; [discriminate | reflexivity].
Qed.

(** A relative component after a path that is not empty and does not end
    in the separator: the two are joined by one separator. *)
Lemma join_step_relative (path b : string) (c : ascii) :
  Str.startswith b (String os_path.sep "") = false ->
  Str.last path = Some c -> Ascii.eqb c os_path.sep = false ->
  os_path.join_step path b = path ++ String os_path.sep b.
Proof.
  intros Hb Hl Hc. unfold os_path.join_step.
  now rewrite Hb, (not_empty_or_sep _ Hl Hc).
Qed.

(** An absolute component discards the path joined so far. *)
Lemma join_step_absolute (path b : string) :
  Str.startswith b (String os_path.sep "") = true ->
  os_path.join_step path b = b.
Proof. intros Hb. unfold os_path.join_step. now rewrite Hb. Qed.

Lemma startswith_sep_app (a b : string) (c : ascii) :
  Str.startswith a (String os_path.sep "") = false ->
  Ascii.eqb os_path.sep c = false ->
  Str.startswith (a ++ String c b) (String os_path.sep "") = false.
Proof.
  intros Ha Hc. destruct a as [|x a]; cbn [Str.startswith append] in *.
  - now rewrite Hc.
  - destruct (Ascii.eqb os_path.sep x); [discriminate | reflexivity].
Qed.

Lemma startswith_sep_app_true (a b : string) :
  Str.startswith a (String os_path.sep "") = true ->
  Str.startswith (a ++ b) (String os_path.sep "") = true.
Proof.
  destruct a as [|x a]; cbn [Str.startswith append]; [discriminate|].
  destruct (Ascii.eqb os_path.sep x); [reflexivity | discriminate].
Qed.

(** Line 18 for a run name that is not absolute. *)
Lemma run_dir_relative (run_name timestamp : string) :
  Str.startswith run_name "/" = false ->
  run_dir run_name timestamp = "runs/" ++ run_name ++ "_" ++ timestamp.
Proof.
  intros Hr. unfold run_dir, os_path.join. cbn [fold_left].
  rewrite (@join_step_relative _ _ "s"%char); [reflexivity | | reflexivity..].
  now apply startswith_sep_app.
Qed.

(** Line 18 for an absolute run name: [runs] is dropped. *)
Lemma run_dir_absolute (run_name timestamp : string) :
  Str.startswith run_name "/" = true ->
  run_dir run_name timestamp = run_name ++ "_" ++ timestamp.
Proof.
  intros Hr. unfold run_dir, os_path.join. cbn [fold_left].
  apply join_step_absolute. now apply startswith_sep_app_true.
Qed.

(** The run directory ends in the last digit of the time stamp. *)
Lemma run_dir_last (run_name : string) (d : datetime.t) :
  Str.last (run_dir run_name (datetime.strftime_Ymd_HMS d))
  = Some (datetime.digit (datetime.second d)).
Proof.
  destruct (Str.startswith run_name "/") eqn:Hr.
  - rewrite run_dir_absolute by assumption.
    rewrite last_app by discriminate. reflexivity.
  - rewrite run_dir_relative by assumption.
    rewrite (last_app "runs/"), last_app; [reflexivity | discriminate |].
    destruct run_name; discriminate.
Qed.

Lemma tensorboard_log_dir_eq (run_name : string) (d : datetime.t) :
  tensorboard_log_dir (run_dir run_name (datetime.strftime_Ymd_HMS d))
  = run_dir run_name (datetime.strftime_Ymd_HMS d) ++ "/logs".
Proof.
  unfold tensorboard_log_dir, os_path.join. cbn [fold_left].
  apply join_step_relative with (c := datetime.digit (datetime.second d));
    [reflexivity | apply run_dir_last | apply digit_not_sep].
Qed.

Lemma checkpoints_dir_eq (run_name : string) (d : datetime.t) :
  os_path.join (run_dir run_name (datetime.strftime_Ymd_HMS d)) ["checkpoints"]
  = run_dir run_name (datetime.strftime_Ymd_HMS d) ++ "/checkpoints".
Proof.
  unfold os_path.join. cbn [fold_left].
  apply join_step_relative with (c := datetime.digit (datetime.second d));
    [reflexivity | apply run_dir_last | apply digit_not_sep].
Qed.

Lemma checkpoint_path_eq (run_name : string) (d : datetime.t) :
  checkpoint_path (run_dir run_name (datetime.strftime_Ymd_HMS d))
  = run_dir run_name (datetime.strftime_Ymd_HMS d)
    ++ "/checkpoints/best_model.keras".
Proof.
  unfold checkpoint_path.
  change (os_path.join ?rd ["checkpoints"; "best_model.keras"])
    with (os_path.join_step (os_path.join rd ["checkpoints"]) "best_model.keras").
  rewrite checkpoints_dir_eq.
  rewrite (@join_step_relative _ _ "s"%char);
    [ | reflexivity | now rewrite last_app | reflexivity].
  now rewrite append_assoc.
Qed.

Lemma csv_path_eq (run_name : string) (d : datetime.t) :
  Str.startswith run_name "/" = false ->
  csv_path (run_dir run_name (datetime.strftime_Ymd_HMS d)) run_name
  = run_dir run_name (datetime.strftime_Ymd_HMS d)
    ++ "/" ++ run_name ++ "_training_log.csv".
Proof.
  intros Hr. unfold csv_path, os_path.join. cbn [fold_left].
  apply join_step_relative with (c := datetime.digit (datetime.second d));
    [ | apply run_dir_last | apply digit_not_sep].
  now apply startswith_sep_app.
Qed.

(** Whatever the directory, the checkpoint path ends in the same two
    components. *)
Lemma checkpoint_path_suffix (rd : string) :
  exists pre, checkpoint_path rd = pre ++ "checkpoints/best_model.keras".
Proof.
  unfold checkpoint_path, os_path.join. cbn [fold_left].
  assert (H : exists pre, os_path.join_step rd "checkpoints" = pre ++ "checkpoints").
  { unfold os_path.join_step. cbn [Str.startswith Ascii.eqb Bool.eqb andb].
    destruct (_ || _); [now exists rd|].
    exists (rd ++ "/"). now rewrite append_assoc. }
  destruct H as [pre ->].
  rewrite (@join_step_relative _ _ "s"%char);
    [ | reflexivity | now rewrite last_app | reflexivity].
  exists pre. now rewrite append_assoc.
Qed.

Lemma run_dir_lines (run_name : string) (d : datetime.t) :
  lines (run_dir run_name (datetime.strftime_Ymd_HMS d)) = lines run_name.
Proof.
  destruct (Str.startswith run_name "/") eqn:Hr.
  - rewrite run_dir_absolute by assumption. unfold lines.
    rewrite !count_app. fold (lines (datetime.strftime_Ymd_HMS d)).
    rewrite strftime_lines. cbn. lia.
  - rewrite run_dir_relative by assumption. unfold lines.
    rewrite !count_app. fold (lines (datetime.strftime_Ymd_HMS d)).
    rewrite strftime_lines. cbn. lia.
Qed.

(** ** Runs *)

Section RunLemmas.

Variables FS OSError PrintError : Type.
Variable makedirs : string -> bool -> FS -> OSError + FS.
Variable print_fails : string -> option PrintError.

Local Abbreviation run := (run makedirs print_fails).
Local Abbreviation makedirs_all := (makedirs_all makedirs).

(** What a run that returned has done: the result is the program's, every
    request was served, and the printed text is on standard output. *)
Lemma run_returned (A : Type) (p : io A) (w w' : world FS) (a : A) :
  run p w = (Returned a, w') ->
  a = result p (clock w) /\
  clock w' = clock w /\
  makedirs_all (requested p (clock w)) (fs w) = inr (fs w') /\
  stdout w' = stdout w ++ printed p (clock w).
Proof.
  revert w; induction p as [b | k IH | name e k IH | text k IH]; intros w H.
  - cbn in *. injection H as <- <-. now rewrite append_nil_r.
  - cbn in *. now apply IH.
  - cbn in *. destruct (makedirs name e (fs w)) as [err | f1]; [discriminate|].
    now apply IH in H.
  - cbn in *. destruct (print_fails text) as [err|]; [discriminate|].
    apply IH in H. cbn in H. destruct H as (-> & -> & -> & ->).
    now rewrite !append_assoc.
Qed.

(** A run returns when every request is served and every text is taken. *)
Lemma run_served (A : Type) (p : io A) (w : world FS) (f : FS) :
  makedirs_all (requested p (clock w)) (fs w) = inr f ->
  (forall text, In text (print_calls p (clock w)) ->
                print_fails text = None) ->
  run p w = (Returned (result p (clock w)),
             World (clock w) f (stdout w ++ printed p (clock w))).
Proof.
  revert w; induction p as [b | k IH | name e k IH | text k IH];
    intros w H P.
  - cbn in *. injection H as <-. rewrite append_nil_r. now destruct w.
  - cbn in *. now apply IH.
  - cbn in *. destruct (makedirs name e (fs w)) as [err | f1]; [discriminate|].
    now rewrite (IH (World (clock w) f1 (stdout w)) H P).
  - cbn in *. rewrite (P text) by now left.
    rewrite (IH (World (clock w) (fs w)
                   (stdout w ++ text ++ String newline "")) H)
      by (intros t Ht; apply P; now right).
    cbn. now rewrite !append_assoc.
Qed.

End RunLemmas.

(** ** The program's three readings *)

Lemma standard_callbacks_requested (run_name monitor : string) (patience : Z)
    (now : datetime.t) :
  requested (standard_callbacks run_name monitor patience) now
  = let rd := run_dir run_name (datetime.strftime_Ymd_HMS now) in
    [(os_path.join rd ["checkpoints"], true); (os_path.join rd ["logs"], true)].
Proof. reflexivity. Qed.

Lemma standard_callbacks_printed (run_name monitor : string) (patience : Z)
    (now : datetime.t) :
  printed (standard_callbacks run_name monitor patience) now
  = let rd := run_dir run_name (datetime.strftime_Ymd_HMS now) in
    (esc ++ "[92m[CALLBACKS]" ++ esc ++ "[0m Initialized for run: "
       ++ run_name) ++ String newline
    (("  → Logs: " ++ tensorboard_log_dir rd) ++ String newline
    (("  → Checkpoints: " ++ checkpoint_path rd) ++ String newline "")).
Proof. reflexivity. Qed.

Lemma standard_callbacks_result (run_name monitor : string) (patience : Z)
    (now : datetime.t) :
  result (standard_callbacks run_name monitor patience) now
  = let rd := run_dir run_name (datetime.strftime_Ymd_HMS now) in
    [ Checkpoint (ModelCheckpoint.mk (checkpoint_path rd) monitor
                    (mode monitor) true false 1);
      ReduceLR (ReduceLROnPlateau.mk monitor 0.5 3 1e-6 (mode monitor) 1);
      EarlyStop (EarlyStopping.mk monitor patience (mode monitor) true 1);
      MetricLog (TensorBoard.mk (tensorboard_log_dir rd) 1 true "epoch");
      CsvLog (CSVLogger.mk (csv_path rd run_name) false ",") ].
Proof. reflexivity. Qed.

(** ** The direction rule *)

(** Every character, to check a fact about characters case by case. *)
Lemma in_all_ascii (c : ascii) : In c (map ascii_of_nat (seq 0 256)).
Proof.
  rewrite <- (ascii_nat_embedding c). apply in_map. apply in_seq.
  pose proof (nat_ascii_bounded c). lia.
Qed.

(** Being the same letter is having the same lower-case form. *)
Lemma same_letter_lower (c d : ascii) :
  same_letter c d
  = Ascii.eqb (Str.lower_ascii c) (Str.lower_ascii d).
Proof.
  assert (all : forallb (fun c => forallb (fun d =>
            Bool.eqb (same_letter c d)
              (Ascii.eqb (Str.lower_ascii c) (Str.lower_ascii d)))
            (map ascii_of_nat (seq 0 256)))
          (map ascii_of_nat (seq 0 256)) = true) by (vm_compute; reflexivity).
  rewrite forallb_forall in all.
  specialize (all c (in_all_ascii c)). rewrite forallb_forall in all.
  specialize (all d (in_all_ascii d)). now apply Bool.eqb_prop in all.
Qed.

Lemma same_letters_lower (a b : string) :
  same_ignoring_case a b <-> Str.lower a = Str.lower b.
Proof.
  unfold same_ignoring_case. revert b.
  induction a as [|c a IH]; intros [|d b]; cbn [same_letters Str.lower];
    try (split; discriminate); [split; reflexivity|].
  rewrite andb_true_iff, same_letter_lower, Ascii.eqb_eq, IH. split.
  - intros [-> ->]. reflexivity.
  - intros H. injection H as -> ->. auto.
Qed.

Lemma contains_lower_iff (k monitor : string) :
  Str.lower k = k ->
  Str.contains k (Str.lower monitor) = true <-> occurs_ignoring_case k monitor.
Proof.
  intros Hk. rewrite contains_spec. split.
  - intros (pre & suf & H).
    destruct (lower_split _ _ _ H) as (a & b & -> & _ & Hb).
    destruct (lower_split _ _ _ Hb) as (m & c & -> & Hm & _).
    exists a, m, c. split; [reflexivity|].
    apply same_letters_lower. now rewrite Hk.
  - intros (pre & mid & suf & -> & Hm). apply same_letters_lower in Hm.
    exists (Str.lower pre), (Str.lower suf).
    now rewrite !lower_app, Hm, Hk.
Qed.

Lemma mode_max_iff (monitor : string) :
  mode monitor = "max" <-> names_a_score monitor.
Proof.
  unfold mode, names_a_score, keywords. cbn [existsb].
  rewrite <- !contains_lower_iff by reflexivity.
  destruct (Str.contains "acc" _), (Str.contains "auc" _),
    (Str.contains "precision" _), (Str.contains "recall" _); cbn;
    intuition discriminate.
Qed.

Lemma mode_min_iff (monitor : string) :
  mode monitor = "min" <-> ~ names_a_score monitor.
Proof.
  rewrite <- mode_max_iff. unfold mode.
  destruct (existsb _ _); split; intros H.
  - discriminate.
  - now contradiction H.
  - discriminate.
  - reflexivity.
Qed.

(** ** The run of [standard_callbacks], step by step *)

Lemma standard_callbacks_print_calls (run_name monitor : string)
    (patience : Z) (now : datetime.t) :
  print_calls (standard_callbacks run_name monitor patience) now
  = let rd := run_dir run_name (datetime.strftime_Ymd_HMS now) in
    [ esc ++ "[92m[CALLBACKS]" ++ esc ++ "[0m Initialized for run: "
        ++ run_name;
      "  → Logs: " ++ rd ++ "/logs";
      "  → Checkpoints: " ++ rd ++ "/checkpoints/best_model.keras" ].
Proof.
  cbv zeta. rewrite <- tensorboard_log_dir_eq, <- checkpoint_path_eq.
  reflexivity.
Qed.

(** The directories are asked for first, one after the other; then the
    three texts are printed; then the list is returned.  The first step
    that fails ends the call. *)
Lemma run_standard_callbacks (FS OSError PrintError : Type)
    (makedirs : string -> bool -> FS -> OSError + FS)
    (print_fails : string -> option PrintError)
    (run_name monitor : string) (patience : Z) (w : world FS) :
  let p := standard_callbacks run_name monitor patience in
  let rd := run_dir run_name (datetime.strftime_Ymd_HMS (clock w)) in
  let t1 := esc ++ "[92m[CALLBACKS]" ++ esc ++ "[0m Initialized for run: "
            ++ run_name in
  let t2 := "  → Logs: " ++ rd ++ "/logs" in
  let t3 := "  → Checkpoints: " ++ rd ++ "/checkpoints/best_model.keras" in
  let o1 := stdout w ++ t1 ++ String newline "" in
  let o2 := o1 ++ t2 ++ String newline "" in
  match makedirs (rd ++ "/checkpoints") true (fs w) with
  | inl err => run makedirs print_fails p w = (Raised err, w)
  | inr f1 =>
      match makedirs (rd ++ "/logs") true f1 with
      | inl err =>
          run makedirs print_fails p w
          = (Raised err, World (clock w) f1 (stdout w))
      | inr f2 =>
          match print_fails t1 with
          | Some e =>
              run makedirs print_fails p w
              = (Print_raised e, World (clock w) f2 (stdout w))
          | None =>
              match print_fails t2 with
              | Some e =>
                  run makedirs print_fails p w
                  = (Print_raised e, World (clock w) f2 o1)
              | None =>
                  match print_fails t3 with
                  | Some e =>
                      run makedirs print_fails p w
                      = (Print_raised e, World (clock w) f2 o2)
                  | None =>
                      run makedirs print_fails p w
                      = (Returned (result p (clock w)),
                         World (clock w) f2
                           (stdout w ++ printed p (clock w)))
                  end
              end
          end
      end
  end.
Proof.
  intros p rd t1 t2 t3 o1 o2. subst p rd t1 t2 t3 o1 o2.
  pose proof (checkpoints_dir_eq run_name (clock w)) as Hc.
  pose proof (tensorboard_log_dir_eq run_name (clock w)) as Ht.
  pose proof Ht as Hl. unfold tensorboard_log_dir in Hl.
  pose proof (checkpoint_path_eq run_name (clock w)) as Hk.
  assert (start : forall X,
    match makedirs (os_path.join (run_dir run_name
             (datetime.strftime_Ymd_HMS (clock w))) ["checkpoints"])
            true (fs w) with
    | inl err => (Raised err, w)
    | inr f1 =>
        match makedirs (os_path.join (run_dir run_name
                 (datetime.strftime_Ymd_HMS (clock w))) ["logs"]) true f1 with
        | inl err => (Raised err, World (clock w) f1 (stdout w))
        | inr f2 =>
            run makedirs print_fails
              (Print (esc ++ "[92m[CALLBACKS]" ++ esc
                      ++ "[0m Initialized for run: " ++ run_name)
                 (Print ("  → Logs: " ++ tensorboard_log_dir (run_dir run_name
                           (datetime.strftime_Ymd_HMS (clock w))))
                    (Print ("  → Checkpoints: " ++ checkpoint_path
                              (run_dir run_name
                                 (datetime.strftime_Ymd_HMS (clock w))))
                       (Return (result (standard_callbacks run_name monitor
                                          patience) (clock w))))))
              (World (clock w) f2 (stdout w))
        end
    end = X ->
    run makedirs print_fails (standard_callbacks run_name monitor patience) w
    = X).
  { intros X <-. reflexivity. }
  destruct (makedirs (run_dir _ _ ++ "/checkpoints") true (fs w))
    as [err | f1] eqn:E1.
  { apply start. now rewrite Hc, E1. }
  destruct (makedirs (run_dir _ _ ++ "/logs") true f1) as [err | f2] eqn:E2.
  { apply start. now rewrite Hc, E1, Hl, E2. }
  destruct (print_fails (esc ++ _)) as [e|] eqn:P1.
  { apply start. rewrite Hc, E1, Hl, E2. cbn [run]. now rewrite P1. }
  destruct (print_fails ("  → Logs: " ++ _)) as [e|] eqn:P2.
  { apply start. rewrite Hc, E1, Hl, E2. cbn [run fs clock stdout].
    now rewrite P1, Ht, P2. }
  destruct (print_fails ("  → Checkpoints: " ++ _)) as [e|] eqn:P3.
  { apply start. rewrite Hc, E1, Hl, E2. cbn [run fs clock stdout].
    rewrite P1, Ht, P2, Hk, P3. reflexivity. }
  apply run_served.
  - rewrite standard_callbacks_requested. cbv zeta. cbn [makedirs_all].
    now rewrite Hc, E1, Hl, E2.
  - rewrite standard_callbacks_print_calls. cbv zeta.
    intros text [<- | [<- | [<- | []]]]; assumption.
Qed.

(** A returned list is the program's result: five callbacks, in the order
    of line 75. *)
Lemma returned_shape (FS OSError PrintError : Type)
    (makedirs : string -> bool -> FS -> OSError + FS)
    (print_fails : string -> option PrintError)
    (run_name monitor : string) (patience : Z)
    (w w' : world FS) (l : list callback) :
  run makedirs print_fails (standard_callbacks run_name monitor patience) w
    = (Returned l, w') ->
  l = result (standard_callbacks run_name monitor patience) (clock w).
Proof. intros H. now apply run_returned in H. Qed.

(** Two calls that differ in [monitor] and [patience] only go through the
    same steps: they leave the same world and end the same way. *)
Lemma run_independent_of_monitor (FS OSError PrintError : Type)
    (makedirs : string -> bool -> FS -> OSError + FS)
    (print_fails : string -> option PrintError)
    (run_name monitor1 monitor2 : string) (patience1 patience2 : Z)
    (w : world FS) :
  let r1 := run makedirs print_fails
              (standard_callbacks run_name monitor1 patience1) w in
  let r2 := run makedirs print_fails
              (standard_callbacks run_name monitor2 patience2) w in
  snd r1 = snd r2 /\
  (forall err, fst r1 = Raised err <-> fst r2 = Raised err) /\
  (forall e, fst r1 = Print_raised e <-> fst r2 = Print_raised e) /\
  ((exists l, fst r1 = Returned l) <-> (exists l, fst r2 = Returned l)).
Proof.
  intros r1 r2. subst r1 r2.
  pose proof (run_standard_callbacks makedirs print_fails
                run_name monitor1 patience1 w) as R1.
  pose proof (run_standard_callbacks makedirs print_fails
                run_name monitor2 patience2 w) as R2.
  cbv zeta in R1, R2.
  destruct (makedirs _ true (fs w)) as [e1 | f1];
    [| destruct (makedirs _ true f1) as [e2 | f2];
       [| destruct (print_fails _) as [x1|] in R1, R2;
          [| destruct (print_fails _) as [x2|] in R1, R2;
             [| destruct (print_fails _) as [x3|] in R1, R2]]]];
    rewrite R1, R2; cbn [fst snd];
    (split; [reflexivity|]);
    (split; [intros; split; intros H; first [exact H | discriminate H]|]);
    (split; [intros; split; intros H; first [exact H | discriminate H]|]);
    split; intros [l H]; try discriminate; eexists; reflexivity.
Qed.

(** * The claims *)

(** ** Direction *)

Example mode_val_accuracy : mode "val_accuracy" = "max".
Proof. reflexivity. Qed.

Example mode_loss : mode "loss" = "min".
Proof. reflexivity. Qed.

Example mode_AUC_score : mode "AUC_score" = "max".
Proof. reflexivity. Qed.

(** C1. A monitor in which ["acc"], ["auc"], ["precision"] or ["recall"]
    occurs, letter case aside, gets mode ['max']; every other monitor gets
    mode ['min']; and the checkpoint, the early-stopping and the
    learning-rate callbacks of a returned list all carry that mode. *)
Theorem direction_from_monitor (run_name monitor : string) (patience : Z) :
  (names_a_score monitor -> mode monitor = "max") /\
  (~ names_a_score monitor -> mode monitor = "min") /\
  forall (FS OSError PrintError : Type)
         (makedirs : string -> bool -> FS -> OSError + FS)
         (print_fails : string -> option PrintError)
         (w w' : world FS) (l : list callback),
    run makedirs print_fails (standard_callbacks run_name monitor patience) w
      = (Returned l, w') ->
    exists c r e t g,
      l = [Checkpoint c; ReduceLR r; EarlyStop e; MetricLog t; CsvLog g] /\
      ModelCheckpoint.mode c = mode monitor /\
      EarlyStopping.mode e = mode monitor /\
      ReduceLROnPlateau.mode r = mode monitor.
Proof.
  split; [apply mode_max_iff | split; [apply mode_min_iff|]].
  intros FS OSError PrintError makedirs print_fails w w' l H.
  apply returned_shape in H. rewrite standard_callbacks_result in H.
  subst l. repeat eexists.
Qed.

Lemma direction_from_monitor_witness :
  mode "AUC_score" = "max" /\
  mode "loss" = "min" /\
  exists c r e t g w',
    SimOS.exec (standard_callbacks "exp1" "Val_Accuracy" 7) SimOS.fresh
      = (Returned [Checkpoint c; ReduceLR r; EarlyStop e; MetricLog t;
                   CsvLog g], w') /\
    ModelCheckpoint.mode c = "max" /\
    EarlyStopping.mode e = "max" /\
    ReduceLROnPlateau.mode r = "max".
Proof.
  destruct (direction_from_monitor "exp1" "AUC_score" 7) as (Hmax & _ & _).
  destruct (direction_from_monitor "exp1" "loss" 7) as (_ & Hmin & _).
  destruct (direction_from_monitor "exp1" "Val_Accuracy" 7)
    as (Hmax' & _ & Hrun).
  split; [| split].
  - apply Hmax. right. left. exists "", "AUC", "_score". split; reflexivity.
  - apply Hmin. apply mode_min_iff. reflexivity.
  - destruct (Hrun _ _ _ SimOS.makedirs SimOS.utf8 SimOS.fresh _ _ eq_refl)
      as (c & r & e & t & g & Hl & Hc & He & Hr).
    assert (M : mode "Val_Accuracy" = "max").
    { apply Hmax'. left. exists "Val_", "Acc", "uracy". split; reflexivity. }
    exists c, r, e, t, g. eexists. split; [| now rewrite Hc, He, Hr, M].
    unfold SimOS.exec. rewrite <- Hl. reflexivity.
Defined.

(** ** The returned list *)

(** The call with default arguments on an empty file system. *)
Example default_call :
  exists w',
    SimOS.exec standard_callbacks_default SimOS.fresh
    = (Returned (result standard_callbacks_default SimOS.new_year), w') /\
    SimOS.dirs (fs w')
    = ["runs/default_run_20240101_000000/logs";
       "runs";
       "runs/default_run_20240101_000000";
       "runs/default_run_20240101_000000/checkpoints"] /\
    mode "val_loss" = "min".
Proof. eexists. split; [reflexivity | split; reflexivity]. Qed.

(** C2. Whatever the arguments, the list a call returns has exactly five
    callbacks, in the order checkpoint, learning-rate reduction, early
    stopping, TensorBoard log, CSV log. *)
Theorem returns_five_in_order (run_name monitor : string) (patience : Z)
    (FS OSError PrintError : Type)
    (makedirs : string -> bool -> FS -> OSError + FS)
    (print_fails : string -> option PrintError)
    (w w' : world FS) (l : list callback) :
  run makedirs print_fails (standard_callbacks run_name monitor patience) w
    = (Returned l, w') ->
  length l = 5 /\
  map kind_of l = [KCheckpoint; KReduceLR; KEarlyStop; KMetricLog; KCsvLog] /\
  exists c r e t g,
    l = [Checkpoint c; ReduceLR r; EarlyStop e; MetricLog t; CsvLog g].
Proof.
  intros H. apply returned_shape in H. rewrite standard_callbacks_result in H.
  subst l. split; [reflexivity|]. split; [reflexivity|].
  do 5 eexists. reflexivity.
Qed.

Lemma returns_five_in_order_witness :
  exists l w',
    SimOS.exec (standard_callbacks "exp1" "val_loss" 7) SimOS.fresh
      = (Returned l, w') /\
    length l = 5 /\
    map kind_of l
    = [KCheckpoint; KReduceLR; KEarlyStop; KMetricLog; KCsvLog] /\
    exists c r e t g,
      l = [Checkpoint c; ReduceLR r; EarlyStop e; MetricLog t; CsvLog g].
Proof.
  do 2 eexists. split; [reflexivity|].
  apply (@returns_five_in_order "exp1" "val_loss" 7 _ _ _
           SimOS.makedirs SimOS.utf8 SimOS.fresh _ _ eq_refl).
Defined.

(** C3. In a returned list the learning-rate callback has patience 3,
    factor 0.5 and floor 1e-6 whatever the [patience] argument is, and the
    early-stopping callback has the [patience] argument as its patience. *)
Theorem patience_settings (run_name monitor : string) (patience : Z)
    (FS OSError PrintError : Type)
    (makedirs : string -> bool -> FS -> OSError + FS)
    (print_fails : string -> option PrintError)
    (w w' : world FS) (l : list callback) :
  run makedirs print_fails (standard_callbacks run_name monitor patience) w
    = (Returned l, w') ->
  exists c r e t g,
    l = [Checkpoint c; ReduceLR r; EarlyStop e; MetricLog t; CsvLog g] /\
    ReduceLROnPlateau.patience r = 3%Z /\
    ReduceLROnPlateau.factor r = 0.5%float /\
    ReduceLROnPlateau.min_lr r = 1e-6%float /\
    EarlyStopping.patience e = patience.
Proof.
  intros H. apply returned_shape in H. rewrite standard_callbacks_result in H.
  subst l. repeat eexists.
Qed.

Lemma patience_settings_witness :
  exists l w',
    SimOS.exec (standard_callbacks "default_run" "val_loss" 10) SimOS.fresh
      = (Returned l, w') /\
    exists c r e t g,
      l = [Checkpoint c; ReduceLR r; EarlyStop e; MetricLog t; CsvLog g] /\
      ReduceLROnPlateau.patience r = 3%Z /\
      ReduceLROnPlateau.factor r = 0.5%float /\
      ReduceLROnPlateau.min_lr r = 1e-6%float /\
      EarlyStopping.patience e = 10%Z.
Proof.
  do 2 eexists. split; [reflexivity|].
  apply (@patience_settings "default_run" "val_loss" 10 _ _ _
           SimOS.makedirs SimOS.utf8 SimOS.fresh _ _ eq_refl).
Defined.

(** ** Paths *)

Example csv_path_exp1 :
  csv_path (run_dir "exp1" (datetime.strftime_Ymd_HMS SimOS.new_year)) "exp1"
  = "runs/exp1_20240101_000000/exp1_training_log.csv".
Proof. reflexivity. Qed.

(** C4 fails for an absolute run name: both joins are reset by the leading
    separator and the CSV log leaves [runs/]. *)
Lemma csv_log_absolute_run_name :
  exists c r e t g w',
    SimOS.exec (standard_callbacks "/x" "val_loss" 7) SimOS.fresh
      = (Returned [Checkpoint c; ReduceLR r; EarlyStop e; MetricLog t;
                   CsvLog g], w') /\
    CSVLogger.filename g = "/x_training_log.csv" /\
    CSVLogger.filename g
      <> "runs/" ++ "/x" ++ "_" ++ datetime.strftime_Ymd_HMS SimOS.new_year
         ++ "/" ++ "/x" ++ "_training_log.csv".
Proof.
  do 6 eexists. split; [reflexivity|]. split; [reflexivity | discriminate].
Qed.

(** C4, amended. For a run name that does not begin with [/], the CSV log
    of a returned list is written to
    [runs/<run_name>_<timestamp>/<run_name>_training_log.csv]; for every
    run name it overwrites rather than appends, and separates fields with
    a comma. *)
Theorem csv_log_settings (run_name monitor : string) (patience : Z)
    (FS OSError PrintError : Type)
    (makedirs : string -> bool -> FS -> OSError + FS)
    (print_fails : string -> option PrintError)
    (w w' : world FS) (l : list callback) :
  run makedirs print_fails (standard_callbacks run_name monitor patience) w
    = (Returned l, w') ->
  exists c r e t g,
    l = [Checkpoint c; ReduceLR r; EarlyStop e; MetricLog t; CsvLog g] /\
    CSVLogger.append g = false /\
    CSVLogger.separator g = "," /\
    (Str.startswith run_name "/" = false ->
     CSVLogger.filename g
     = "runs/" ++ run_name ++ "_" ++ datetime.strftime_Ymd_HMS (clock w)
       ++ "/" ++ run_name ++ "_training_log.csv").
Proof.
  intros H. apply returned_shape in H. rewrite standard_callbacks_result in H.
  subst l. do 5 eexists. split; [reflexivity|].
  split; [reflexivity|]. split; [reflexivity|].
  intros Hr. cbn [CSVLogger.filename].
  rewrite csv_path_eq, run_dir_relative by assumption.
  now rewrite !append_assoc.
Qed.

Lemma csv_log_settings_witness :
  exists l w',
    SimOS.exec (standard_callbacks "exp1" "val_loss" 7) SimOS.fresh
      = (Returned l, w') /\
    exists c r e t g,
      l = [Checkpoint c; ReduceLR r; EarlyStop e; MetricLog t; CsvLog g] /\
      CSVLogger.append g = false /\
      CSVLogger.separator g = "," /\
      CSVLogger.filename g = "runs/exp1_20240101_000000/exp1_training_log.csv".
Proof.
  do 2 eexists. split; [reflexivity|].
  destruct (@csv_log_settings "exp1" "val_loss" 7 _ _ _
              SimOS.makedirs SimOS.utf8 SimOS.fresh _ _ eq_refl)
    as (c & r & e & t & g & Hl & Ha & Hs & Hf).
  exists c, r, e, t, g. repeat split; try assumption.
  rewrite (Hf eq_refl). reflexivity.
Defined.

(** C5. The checkpoint callback of a returned list saves to
    [run_dir/checkpoints/best_model.keras], watches the [monitor] argument
    in the derived mode, keeps only the best model, saves the whole model
    and not its weights alone, and reports what it does. *)
Theorem checkpoint_settings (run_name monitor : string) (patience : Z)
    (FS OSError PrintError : Type)
    (makedirs : string -> bool -> FS -> OSError + FS)
    (print_fails : string -> option PrintError)
    (w w' : world FS) (l : list callback) :
  run makedirs print_fails (standard_callbacks run_name monitor patience) w
    = (Returned l, w') ->
  exists c r e t g,
    l = [Checkpoint c; ReduceLR r; EarlyStop e; MetricLog t; CsvLog g] /\
    ModelCheckpoint.filepath c
    = run_dir run_name (datetime.strftime_Ymd_HMS (clock w))
      ++ "/checkpoints/best_model.keras" /\
    ModelCheckpoint.monitor c = monitor /\
    ModelCheckpoint.mode c = mode monitor /\
    ModelCheckpoint.save_best_only c = true /\
    ModelCheckpoint.save_weights_only c = false /\
    ModelCheckpoint.verbose c = 1%Z.
Proof.
  intros H. apply returned_shape in H. rewrite standard_callbacks_result in H.
  subst l. do 5 eexists. split; [reflexivity|].
  split; [apply checkpoint_path_eq|]. repeat split.
Qed.

Lemma checkpoint_settings_witness :
  exists l w',
    SimOS.exec (standard_callbacks "exp1" "val_accuracy" 7) SimOS.fresh
      = (Returned l, w') /\
    exists c r e t g,
      l = [Checkpoint c; ReduceLR r; EarlyStop e; MetricLog t; CsvLog g] /\
      ModelCheckpoint.filepath c
      = "runs/exp1_20240101_000000/checkpoints/best_model.keras" /\
      ModelCheckpoint.monitor c = "val_accuracy" /\
      ModelCheckpoint.mode c = "max" /\
      ModelCheckpoint.save_best_only c = true /\
      ModelCheckpoint.save_weights_only c = false /\
      ModelCheckpoint.verbose c = 1%Z.
Proof.
  do 2 eexists. split; [reflexivity|].
  apply (@checkpoint_settings "exp1" "val_accuracy" 7 _ _ _
           SimOS.makedirs SimOS.utf8 SimOS.fresh _ _ eq_refl).
Defined.

(** C10. The checkpoint file of a returned list always has the extension
    [keras]: its path ends in [checkpoints/best_model.keras]. *)
Theorem checkpoint_extension (run_name monitor : string) (patience : Z)
    (FS OSError PrintError : Type)
    (makedirs : string -> bool -> FS -> OSError + FS)
    (print_fails : string -> option PrintError)
    (w w' : world FS) (l : list callback) :
  run makedirs print_fails (standard_callbacks run_name monitor patience) w
    = (Returned l, w') ->
  exists c rest pre,
    l = Checkpoint c :: rest /\
    ModelCheckpoint.filepath c = pre ++ "checkpoints/best_model.keras".
Proof.
  intros H. apply returned_shape in H. rewrite standard_callbacks_result in H.
  subst l. cbv zeta.
  destruct (checkpoint_path_suffix
              (run_dir run_name (datetime.strftime_Ymd_HMS (clock w))))
    as [pre Hpre].
  do 2 eexists. exists pre. split; [reflexivity | exact Hpre].
Qed.

Lemma checkpoint_extension_witness :
  exists l w',
    SimOS.exec (standard_callbacks "/x" "loss" 0) SimOS.fresh
      = (Returned l, w') /\
    exists c rest pre,
      l = Checkpoint c :: rest /\
      ModelCheckpoint.filepath c = pre ++ "checkpoints/best_model.keras".
Proof.
  do 2 eexists. split; [reflexivity|].
  apply (@checkpoint_extension "/x" "loss" 0 _ _ _
           SimOS.makedirs SimOS.utf8 SimOS.fresh _ _ eq_refl).
Defined.

(** ** Validation *)

(** C6. With the empty monitor the mode is ['min'], by the same substring
    rule; the list a call returns is the full one, its three watching
    callbacks monitoring [""] in mode ['min']; and the empty monitor is
    not checked: the call goes through the same steps as with any other
    monitor, leaving the same world, raising an error exactly when the
    other call raises it and returning exactly when the other returns. *)
Theorem empty_monitor (run_name : string) (patience : Z)
    (FS OSError PrintError : Type)
    (makedirs : string -> bool -> FS -> OSError + FS)
    (print_fails : string -> option PrintError)
    (w : world FS) :
  let r := run makedirs print_fails
             (standard_callbacks run_name "" patience) w in
  mode "" = "min" /\
  (forall l, fst r = Returned l ->
     exists c rl e t g,
       l = [Checkpoint c; ReduceLR rl; EarlyStop e; MetricLog t; CsvLog g] /\
       ModelCheckpoint.monitor c = "" /\ ModelCheckpoint.mode c = "min" /\
       ReduceLROnPlateau.monitor rl = "" /\
       ReduceLROnPlateau.mode rl = "min" /\
       EarlyStopping.monitor e = "" /\ EarlyStopping.mode e = "min") /\
  forall monitor,
    let r' := run makedirs print_fails
                (standard_callbacks run_name monitor patience) w in
    snd r = snd r' /\
    (forall err, fst r = Raised err <-> fst r' = Raised err) /\
    (forall err, fst r = Print_raised err <-> fst r' = Print_raised err) /\
    ((exists l, fst r = Returned l) <-> (exists l, fst r' = Returned l)).
Proof.
  intros r. split; [reflexivity|]. split.
  - intros l H. subst r.
    destruct (run _ _ _ w) as [o w'] eqn:E. cbn [fst] in H. subst o.
    apply returned_shape in E. rewrite standard_callbacks_result in E.
    subst l. do 5 eexists. repeat split.
  - intros monitor. apply run_independent_of_monitor.
Qed.

Lemma empty_monitor_witness :
  mode "" = "min" /\
  exists c rl e t g w',
    SimOS.exec (standard_callbacks "exp1" "" 7) SimOS.fresh
      = (Returned [Checkpoint c; ReduceLR rl; EarlyStop e; MetricLog t;
                   CsvLog g], w') /\
    ModelCheckpoint.monitor c = "" /\ ModelCheckpoint.mode c = "min" /\
    ReduceLROnPlateau.monitor rl = "" /\ ReduceLROnPlateau.mode rl = "min" /\
    EarlyStopping.monitor e = "" /\ EarlyStopping.mode e = "min".
Proof.
  destruct (@empty_monitor "exp1" 7 _ _ _ SimOS.makedirs SimOS.utf8
              SimOS.fresh) as (Hmode & Hret & _).
  split; [exact Hmode|].
  destruct (Hret _ eq_refl) as (c & rl & e & t & g & Hl & Hrest).
  exists c, rl, e, t, g. eexists. split; [| exact Hrest].
  unfold SimOS.exec. rewrite <- Hl. reflexivity.
Defined.

(** ** Directory creation *)





(** ** Standard output *)

Lemma lines_print (text rest : string) :
  lines (text ++ String newline rest) = lines text + 1 + lines rest.
Proof.
  unfold lines. rewrite count_app. cbn [Str.count].
  rewrite Ascii.eqb_refl. lia.
Qed.

(** C8 fails on the count: a call that returns has printed three lines,
    not two, and a refused one has printed none. *)
Lemma three_status_lines :
  lines (stdout (snd (SimOS.exec
           (standard_callbacks "exp1" "val_loss" 7) SimOS.fresh))) = 3 /\
  lines (stdout (snd (SimOS.exec
           (standard_callbacks "exp1" "val_loss" 7) SimOS.fresh))) <> 2 /\
  lines (stdout (snd (SimOS.exec
           (standard_callbacks "exp1" "val_loss" 7) SimOS.locked))) = 0.
Proof. split; [reflexivity | split; [discriminate | reflexivity]]. Qed.

(** C8, amended. A call that returns has written exactly three status
    texts to standard output, each ended by a newline: the first names the
    run, the second the log directory, the third the checkpoint path; they
    are three lines when the run name has no line break in it.  A call that
    raises has written nothing. *)
Theorem status_lines (run_name monitor : string) (patience : Z)
    (FS OSError PrintError : Type)
    (makedirs : string -> bool -> FS -> OSError + FS)
    (print_fails : string -> option PrintError)
    (w : world FS) :
  let p := standard_callbacks run_name monitor patience in
  let rd := run_dir run_name (datetime.strftime_Ymd_HMS (clock w)) in
  let line1 := esc ++ "[92m[CALLBACKS]" ++ esc ++ "[0m Initialized for run: "
               ++ run_name in
  let line2 := "  → Logs: " ++ rd ++ "/logs" in
  let line3 := "  → Checkpoints: " ++ rd ++ "/checkpoints/best_model.keras" in
  let text := line1 ++ String newline
              (line2 ++ String newline (line3 ++ String newline "")) in
  (forall l w', run makedirs print_fails p w = (Returned l, w') ->
                stdout w' = stdout w ++ text) /\
  (forall err w', run makedirs print_fails p w = (Raised err, w') ->
                  stdout w' = stdout w) /\
  (lines run_name = 0 -> lines text = 3).
Proof.
  intros p rd line1 line2 line3 text. split; [| split].
  - intros l w' H. apply run_returned in H.
    destruct H as (_ & _ & _ & ->). f_equal.
    unfold p. rewrite standard_callbacks_printed. cbv zeta.
    now rewrite tensorboard_log_dir_eq, checkpoint_path_eq.
  - intros err w' H.
    pose proof (run_standard_callbacks makedirs print_fails
                  run_name monitor patience w) as R.
    cbv zeta in R. fold rd p in R.
    destruct (makedirs (rd ++ "/checkpoints") true (fs w)) as [e1 | f1].
    { rewrite R in H. now injection H as _ <-. }
    destruct (makedirs (rd ++ "/logs") true f1) as [e2 | f2].
    { rewrite R in H. now injection H as _ <-. }
    destruct (print_fails _) as [x1|] in R;
      [| destruct (print_fails _) as [x2|] in R;
         [| destruct (print_fails _) as [x3|] in R]];
      rewrite R in H; discriminate H.
  - intros Hn. unfold text. rewrite !lines_print.
    unfold line1, line2, line3, lines. rewrite !count_app.
    fold (lines run_name) (lines rd). unfold rd.
    rewrite run_dir_lines, Hn. reflexivity.
Qed.

Lemma status_lines_witness :
  exists l w',
    SimOS.exec (standard_callbacks "exp1" "val_loss" 7) SimOS.fresh
      = (Returned l, w') /\
    stdout w'
    = String "027" "[92m[CALLBACKS]" ++ String "027" "[0m Initialized for run: exp1"
      ++ String newline "  → Logs: runs/exp1_20240101_000000/logs"
      ++ String newline
         "  → Checkpoints: runs/exp1_20240101_000000/checkpoints/best_model.keras"
      ++ String newline "" /\
    lines (stdout w') = 3.
Proof.
  do 2 eexists. split; [reflexivity|].
  destruct (@status_lines "exp1" "val_loss" 7 _ _ _ SimOS.makedirs SimOS.utf8 SimOS.fresh)
    as (Hret & _ & Hlines).
  split.
  - rewrite (Hret _ _ eq_refl). reflexivity.
  - rewrite (Hret _ _ eq_refl). exact (Hlines eq_refl).
Defined.

(** ** Determinism *)

(** C9. Two calls with the same arguments whose clocks format to the same
    time stamp ask for the same directories, print the same text and, when
    both return, return the same list: the same five callbacks, with the
    same paths and mode, in the same order. *)
Theorem same_instant_same_result (run_name monitor : string) (patience : Z)
    (FS OSError PrintError : Type)
    (makedirs : string -> bool -> FS -> OSError + FS)
    (print_fails : string -> option PrintError)
    (w1 w2 : world FS) :
  datetime.strftime_Ymd_HMS (clock w1) = datetime.strftime_Ymd_HMS (clock w2) ->
  let p := standard_callbacks run_name monitor patience in
  requested p (clock w1) = requested p (clock w2) /\
  printed p (clock w1) = printed p (clock w2) /\
  forall l1 l2 w1' w2',
    run makedirs print_fails p w1 = (Returned l1, w1') ->
    run makedirs print_fails p w2 = (Returned l2, w2') ->
    l1 = l2.
Proof.
  intros Hts p. unfold p.
  rewrite !standard_callbacks_requested, !standard_callbacks_printed.
  cbv zeta. rewrite Hts. split; [reflexivity | split; [reflexivity|]].
  intros l1 l2 w1' w2' H1 H2.
  apply returned_shape in H1, H2.
  rewrite standard_callbacks_result in H1, H2. cbv zeta in H1, H2.
  rewrite Hts in H1. congruence.
Qed.

Lemma same_instant_same_result_witness :
  exists l1 l2 w1' w2',
    SimOS.exec (standard_callbacks "exp1" "val_loss" 7) SimOS.fresh
      = (Returned l1, w1') /\
    SimOS.exec (standard_callbacks "exp1" "val_loss" 7)
      (World SimOS.new_year_later (SimOS.mkFS ["runs"] [] []) "earlier output")
      = (Returned l2, w2') /\
    l1 = l2.
Proof.
  do 4 eexists. split; [reflexivity|]. split; [reflexivity|].
  destruct (@same_instant_same_result "exp1" "val_loss" 7 _ _ _ SimOS.makedirs SimOS.utf8
              SimOS.fresh
              (World SimOS.new_year_later (SimOS.mkFS ["runs"] [] [])
                     "earlier output") eq_refl) as (_ & _ & Hsame).
  exact (Hsame _ _ _ _ eq_refl eq_refl).
Defined.

(** * Further properties of [standard_callbacks] *)

(** ** More on strings *)

Lemma length_app (a b : string) :
  String.length (a ++ b) = String.length a + String.length b.
Proof. induction a as [|x a IH]; simpl; [reflexivity | now rewrite IH]. Qed.

Lemma append_inv_head (a b c : string) : a ++ b = a ++ c -> b = c.
Proof.
  induction a as [|x a IH]; simpl; intros H; [exact H|].
  injection H as H. now apply IH.
Qed.

(** Two splits of one string with tails of equal length are the same
    split. *)
Lemma append_inv_tail_length (a b c d : string) :
  a ++ b = c ++ d -> String.length b = String.length d -> a = c /\ b = d.
Proof.
  revert c; induction a as [|x a IH]; intros [|y c] H L; simpl in H.
  - auto.
  - subst b. simpl in L. rewrite length_app in L. lia.
  - subst d. simpl in L. rewrite length_app in L. lia.
  - injection H as -> H. destruct (IH _ H L) as [-> ->]. auto.
Qed.

Lemma strftime_length (d : datetime.t) :
  String.length (datetime.strftime_Ymd_HMS d) = 15.
Proof. reflexivity. Qed.

Lemma lower_ascii_idempotent (c : ascii) :
  Str.lower_ascii (Str.lower_ascii c) = Str.lower_ascii c.
Proof.
  destruct c as [[] [] [] [] [] [] [] []]; vm_compute; reflexivity.
Qed.

Lemma lower_idempotent (s : string) : Str.lower (Str.lower s) = Str.lower s.
Proof.
  induction s as [|c s IH]; simpl; [reflexivity|].
  now rewrite lower_ascii_idempotent, IH.
Qed.

Lemma lower_length (s : string) : String.length (Str.lower s) = String.length s.
Proof. induction s as [|c s IH]; simpl; [reflexivity | now rewrite IH]. Qed.

Lemma contains_length (k s : string) :
  Str.contains k s = true -> String.length k <= String.length s.
Proof.
  rewrite contains_spec. intros (pre & suf & ->).
  rewrite !length_app. lia.
Qed.

(** ** The callbacks the claims leave out *)

(** X1. The TensorBoard callback of a returned list logs to [run_dir/logs]
    (under [runs/<run_name>_<timestamp>] for a run name that is not
    absolute), with histograms every epoch, the graph written, and an
    update once per epoch. *)
Theorem tensorboard_settings (run_name monitor : string) (patience : Z)
    (FS OSError PrintError : Type)
    (makedirs : string -> bool -> FS -> OSError + FS)
    (print_fails : string -> option PrintError)
    (w w' : world FS) (l : list callback) :
  run makedirs print_fails (standard_callbacks run_name monitor patience) w
    = (Returned l, w') ->
  exists c r e t g,
    l = [Checkpoint c; ReduceLR r; EarlyStop e; MetricLog t; CsvLog g] /\
    TensorBoard.log_dir t
    = run_dir run_name (datetime.strftime_Ymd_HMS (clock w)) ++ "/logs" /\
    TensorBoard.histogram_freq t = 1%Z /\
    TensorBoard.write_graph t = true /\
    TensorBoard.update_freq t = "epoch" /\
    (Str.startswith run_name "/" = false ->
     TensorBoard.log_dir t
     = "runs/" ++ run_name ++ "_" ++ datetime.strftime_Ymd_HMS (clock w)
       ++ "/logs").
Proof.
  intros H. apply returned_shape in H. rewrite standard_callbacks_result in H.
  subst l. do 5 eexists. split; [reflexivity|].
  cbn [TensorBoard.log_dir TensorBoard.histogram_freq TensorBoard.write_graph
       TensorBoard.update_freq].
  rewrite tensorboard_log_dir_eq. repeat split.
  intros Hr. rewrite run_dir_relative by assumption.
  now rewrite !append_assoc.
Qed.

Lemma tensorboard_settings_witness :
  exists l w',
    SimOS.exec (standard_callbacks "exp1" "val_loss" 7) SimOS.fresh
      = (Returned l, w') /\
    exists c r e t g,
      l = [Checkpoint c; ReduceLR r; EarlyStop e; MetricLog t; CsvLog g] /\
      TensorBoard.log_dir t = "runs/exp1_20240101_000000/logs" /\
      TensorBoard.histogram_freq t = 1%Z /\
      TensorBoard.write_graph t = true /\
      TensorBoard.update_freq t = "epoch".
Proof.
  do 2 eexists. split; [reflexivity|].
  destruct (@tensorboard_settings "exp1" "val_loss" 7 _ _ _
              SimOS.makedirs SimOS.utf8 SimOS.fresh _ _ eq_refl)
    as (c & r & e & t & g & Hl & _ & Hh & Hg & Hu & Hd).
  exists c, r, e, t, g. repeat split; try assumption.
  rewrite (Hd eq_refl). reflexivity.
Defined.

(** X2. The three callbacks that watch a metric all watch the [monitor]
    argument as it was given (not its lower-cased form); early stopping
    restores the best weights; early stopping and learning-rate reduction
    both report what they do. *)
Theorem monitored_callbacks (run_name monitor : string) (patience : Z)
    (FS OSError PrintError : Type)
    (makedirs : string -> bool -> FS -> OSError + FS)
    (print_fails : string -> option PrintError)
    (w w' : world FS) (l : list callback) :
  run makedirs print_fails (standard_callbacks run_name monitor patience) w
    = (Returned l, w') ->
  exists c r e t g,
    l = [Checkpoint c; ReduceLR r; EarlyStop e; MetricLog t; CsvLog g] /\
    ModelCheckpoint.monitor c = monitor /\
    ReduceLROnPlateau.monitor r = monitor /\
    EarlyStopping.monitor e = monitor /\
    EarlyStopping.restore_best_weights e = true /\
    EarlyStopping.verbose e = 1%Z /\
    ReduceLROnPlateau.verbose r = 1%Z.
Proof.
  intros H. apply returned_shape in H. rewrite standard_callbacks_result in H.
  subst l. do 5 eexists. repeat split.
Qed.

Lemma monitored_callbacks_witness :
  exists l w',
    SimOS.exec (standard_callbacks "exp1" "Val_AUC" 7) SimOS.fresh
      = (Returned l, w') /\
    exists c r e t g,
      l = [Checkpoint c; ReduceLR r; EarlyStop e; MetricLog t; CsvLog g] /\
      ModelCheckpoint.monitor c = "Val_AUC" /\
      ReduceLROnPlateau.monitor r = "Val_AUC" /\
      EarlyStopping.monitor e = "Val_AUC" /\
      EarlyStopping.restore_best_weights e = true /\
      EarlyStopping.verbose e = 1%Z /\
      ReduceLROnPlateau.verbose r = 1%Z.
Proof.
  do 2 eexists. split; [reflexivity|].
  apply (@monitored_callbacks "exp1" "Val_AUC" 7 _ _ _
           SimOS.makedirs SimOS.utf8 SimOS.fresh _ _ eq_refl).
Defined.

(** X3. The directories a returning call was given are the ones its
    callbacks write to: the first holds the checkpoint file, the second is
    the TensorBoard log directory; they were created in that order, on the
    file system the call leaves behind. *)
Theorem created_directories_are_used (run_name monitor : string)
    (patience : Z)
    (FS OSError PrintError : Type)
    (makedirs : string -> bool -> FS -> OSError + FS)
    (print_fails : string -> option PrintError)
    (w w' : world FS) (l : list callback) :
  run makedirs print_fails (standard_callbacks run_name monitor patience) w
    = (Returned l, w') ->
  exists c r e t g d1 f1,
    l = [Checkpoint c; ReduceLR r; EarlyStop e; MetricLog t; CsvLog g] /\
    ModelCheckpoint.filepath c = d1 ++ "/best_model.keras" /\
    makedirs d1 true (fs w) = inr f1 /\
    makedirs (TensorBoard.log_dir t) true f1 = inr (fs w').
Proof.
  intros H. apply run_returned in H. destruct H as (-> & _ & M & _).
  rewrite standard_callbacks_requested in M. cbv zeta in M.
  cbn [makedirs_all] in M.
  destruct (makedirs _ true (fs w)) as [e1 | f1] eqn:E1; [discriminate M|].
  destruct (makedirs _ true f1) as [e2 | f2] eqn:E2; [discriminate M|].
  injection M as <-.
  rewrite standard_callbacks_result. cbv zeta.
  do 5 eexists. eexists. exists f1. split; [reflexivity|].
  cbn [ModelCheckpoint.filepath TensorBoard.log_dir].
  split; [| split; [exact E1 | exact E2]].
  unfold checkpoint_path, os_path.join. cbn [fold_left].
  unfold os_path.join_step at 1.
  cbn [Str.startswith Ascii.eqb Bool.eqb andb].
  assert (L : Str.last (os_path.join (run_dir run_name
                 (datetime.strftime_Ymd_HMS (clock w))) ["checkpoints"])
              = Some "s"%char).
  { rewrite checkpoints_dir_eq. now rewrite last_app. }
  unfold os_path.join in L. cbn [fold_left] in L.
  now rewrite (not_empty_or_sep _ L eq_refl).
Qed.

Lemma created_directories_are_used_witness :
  exists l w',
    SimOS.exec (standard_callbacks "/x" "val_loss" 7) SimOS.fresh
      = (Returned l, w') /\
    exists c r e t g d1 f1,
      l = [Checkpoint c; ReduceLR r; EarlyStop e; MetricLog t; CsvLog g] /\
      ModelCheckpoint.filepath c = d1 ++ "/best_model.keras" /\
      SimOS.makedirs d1 true (fs SimOS.fresh) = inr f1 /\
      SimOS.makedirs (TensorBoard.log_dir t) true f1 = inr (fs w').
Proof.
  do 2 eexists. split; [reflexivity|].
  apply (@created_directories_are_used "/x" "val_loss" 7 _ _ _
           SimOS.makedirs SimOS.utf8 SimOS.fresh _ _ eq_refl).
Defined.

(** ** Run directories and output paths *)

Lemma join_step_last (path b : string) :
  b <> "" -> Str.last (os_path.join_step path b) = Str.last b.
Proof.
  intros Hb. unfold os_path.join_step.
  destruct (Str.startswith b _); [reflexivity|].
  destruct (_ || _); [now apply last_app|].
  rewrite last_app by discriminate.
  destruct b; [contradiction | reflexivity].
Qed.

Lemma csv_path_last (rd run_name : string) :
  Str.last (csv_path rd run_name) = Some "v"%char.
Proof.
  unfold csv_path, os_path.join. cbn [fold_left].
  rewrite join_step_last.
  - now rewrite last_app.
  - destruct run_name; discriminate.
Qed.

(** X4. The run directory path determines the run name and the time
    stamp: two calls compute the same path string only when they have the
    same run name and their clocks format to the same second. *)
Theorem run_dir_injective (run_name1 run_name2 : string) (d1 d2 : datetime.t) :
  run_dir run_name1 (datetime.strftime_Ymd_HMS d1)
    = run_dir run_name2 (datetime.strftime_Ymd_HMS d2) ->
  run_name1 = run_name2 /\
  datetime.strftime_Ymd_HMS d1 = datetime.strftime_Ymd_HMS d2.
Proof.
  assert (tails : forall a b : string,
             a ++ "_" ++ datetime.strftime_Ymd_HMS d1
             = b ++ "_" ++ datetime.strftime_Ymd_HMS d2 ->
             a = b /\ datetime.strftime_Ymd_HMS d1
                      = datetime.strftime_Ymd_HMS d2).
  { intros a b H. apply append_inv_tail_length in H.
    - destruct H as [-> H]. split; [reflexivity|].
      now apply append_inv_head in H.
    - cbn [append String.length]. now rewrite !strftime_length. }
  intros H.
  destruct (Str.startswith run_name1 "/") eqn:H1;
    destruct (Str.startswith run_name2 "/") eqn:H2.
  - rewrite !run_dir_absolute in H by assumption. now apply tails.
  - rewrite (@run_dir_absolute run_name1 _ H1),
      (@run_dir_relative run_name2 _ H2) in H.
    destruct run_name1 as [|c r]; [discriminate|].
    cbn [Str.startswith] in H1. apply andb_prop in H1 as [H1 _].
    apply Ascii.eqb_eq in H1. subst c. discriminate.
  - rewrite (@run_dir_relative run_name1 _ H1),
      (@run_dir_absolute run_name2 _ H2) in H.
    destruct run_name2 as [|c r]; [discriminate|].
    cbn [Str.startswith] in H2. apply andb_prop in H2 as [H2 _].
    apply Ascii.eqb_eq in H2. subst c. discriminate.
  - rewrite !run_dir_relative in H by assumption.
    apply append_inv_head in H. now apply tails.
Qed.

Lemma run_dir_injective_witness :
  "exp1" = "exp1" /\
  datetime.strftime_Ymd_HMS SimOS.new_year
    = datetime.strftime_Ymd_HMS SimOS.new_year_later.
Proof.
  exact (@run_dir_injective "exp1" "exp1" SimOS.new_year SimOS.new_year_later
           eq_refl).
Defined.

(** X5. For a run name that begins with [/] the component [runs] is
    dropped from every path: the checkpoint goes to
    [<run_name>_<timestamp>/checkpoints/best_model.keras], the TensorBoard
    logs to [<run_name>_<timestamp>/logs], and the CSV log to
    [<run_name>_training_log.csv], whose name has no time stamp. *)
Theorem absolute_run_name_paths (run_name monitor : string) (patience : Z)
    (FS OSError PrintError : Type)
    (makedirs : string -> bool -> FS -> OSError + FS)
    (print_fails : string -> option PrintError)
    (w w' : world FS) (l : list callback) :
  Str.startswith run_name "/" = true ->
  run makedirs print_fails (standard_callbacks run_name monitor patience) w
    = (Returned l, w') ->
  exists c r e t g,
    l = [Checkpoint c; ReduceLR r; EarlyStop e; MetricLog t; CsvLog g] /\
    ModelCheckpoint.filepath c
    = run_name ++ "_" ++ datetime.strftime_Ymd_HMS (clock w)
      ++ "/checkpoints/best_model.keras" /\
    TensorBoard.log_dir t
    = run_name ++ "_" ++ datetime.strftime_Ymd_HMS (clock w) ++ "/logs" /\
    CSVLogger.filename g = run_name ++ "_training_log.csv".
Proof.
  intros Hr H. apply returned_shape in H.
  rewrite standard_callbacks_result in H. subst l.
  do 5 eexists. split; [reflexivity|].
  cbn [ModelCheckpoint.filepath TensorBoard.log_dir CSVLogger.filename].
  rewrite checkpoint_path_eq, tensorboard_log_dir_eq.
  rewrite run_dir_absolute by assumption.
  split; [now rewrite !append_assoc|]. split; [now rewrite !append_assoc|].
  unfold csv_path, os_path.join. cbn [fold_left].
  apply join_step_absolute. now apply startswith_sep_app_true.
Qed.

Lemma absolute_run_name_paths_witness :
  exists l w',
    SimOS.exec (standard_callbacks "/tmp/x" "val_loss" 7) SimOS.fresh
      = (Returned l, w') /\
    exists c r e t g,
      l = [Checkpoint c; ReduceLR r; EarlyStop e; MetricLog t; CsvLog g] /\
      ModelCheckpoint.filepath c
      = "/tmp/x_20240101_000000/checkpoints/best_model.keras" /\
      TensorBoard.log_dir t = "/tmp/x_20240101_000000/logs" /\
      CSVLogger.filename g = "/tmp/x_training_log.csv".
Proof.
  do 2 eexists. split; [reflexivity|].
  apply (@absolute_run_name_paths "/tmp/x" "val_loss" 7 _ _ _
           SimOS.makedirs SimOS.utf8 SimOS.fresh _ _ eq_refl eq_refl).
Defined.

(** X6. The three places a returned list writes to are pairwise different:
    the checkpoint file, the TensorBoard directory and the CSV log never
    share a path, whatever the run name. *)
Theorem output_paths_distinct (run_name monitor : string) (patience : Z)
    (FS OSError PrintError : Type)
    (makedirs : string -> bool -> FS -> OSError + FS)
    (print_fails : string -> option PrintError)
    (w w' : world FS) (l : list callback) :
  run makedirs print_fails (standard_callbacks run_name monitor patience) w
    = (Returned l, w') ->
  exists c r e t g,
    l = [Checkpoint c; ReduceLR r; EarlyStop e; MetricLog t; CsvLog g] /\
    ModelCheckpoint.filepath c <> CSVLogger.filename g /\
    TensorBoard.log_dir t <> CSVLogger.filename g /\
    ModelCheckpoint.filepath c <> TensorBoard.log_dir t.
Proof.
  intros H. apply returned_shape in H.
  rewrite standard_callbacks_result in H. subst l.
  do 5 eexists. split; [reflexivity|].
  cbn [ModelCheckpoint.filepath TensorBoard.log_dir CSVLogger.filename].
  rewrite checkpoint_path_eq, tensorboard_log_dir_eq.
  split; [| split]; intros E.
  - apply (f_equal Str.last) in E.
    rewrite csv_path_last, last_app in E; discriminate.
  - apply (f_equal Str.last) in E.
    rewrite csv_path_last, last_app in E; discriminate.
  - apply append_inv_head in E. discriminate.
Qed.

Lemma output_paths_distinct_witness :
  exists l w',
    SimOS.exec (standard_callbacks "" "val_loss" 7) SimOS.fresh
      = (Returned l, w') /\
    exists c r e t g,
      l = [Checkpoint c; ReduceLR r; EarlyStop e; MetricLog t; CsvLog g] /\
      ModelCheckpoint.filepath c <> CSVLogger.filename g /\
      TensorBoard.log_dir t <> CSVLogger.filename g /\
      ModelCheckpoint.filepath c <> TensorBoard.log_dir t.
Proof.
  do 2 eexists. split; [reflexivity|].
  apply (@output_paths_distinct "" "val_loss" 7 _ _ _
           SimOS.makedirs SimOS.utf8 SimOS.fresh _ _ eq_refl).
Defined.

(** X7. The status text of a returning call reports the paths that were
    configured: its second line ends in the TensorBoard callback's log
    directory and its third in the checkpoint callback's file path. *)
Theorem status_reports_configured_paths (run_name monitor : string)
    (patience : Z)
    (FS OSError PrintError : Type)
    (makedirs : string -> bool -> FS -> OSError + FS)
    (print_fails : string -> option PrintError)
    (w w' : world FS) (l : list callback) :
  run makedirs print_fails (standard_callbacks run_name monitor patience) w
    = (Returned l, w') ->
  exists c r e t g,
    l = [Checkpoint c; ReduceLR r; EarlyStop e; MetricLog t; CsvLog g] /\
    stdout w'
    = stdout w
      ++ (esc ++ "[92m[CALLBACKS]" ++ esc ++ "[0m Initialized for run: "
          ++ run_name) ++ String newline
         (("  → Logs: " ++ TensorBoard.log_dir t) ++ String newline
         (("  → Checkpoints: " ++ ModelCheckpoint.filepath c)
          ++ String newline "")).
Proof.
  intros H. apply run_returned in H. destruct H as (-> & _ & _ & ->).
  rewrite standard_callbacks_result, standard_callbacks_printed.
  do 5 eexists. split; reflexivity.
Qed.

Lemma status_reports_configured_paths_witness :
  exists l w',
    SimOS.exec (standard_callbacks "/x" "val_loss" 7) SimOS.fresh
      = (Returned l, w') /\
    exists c r e t g,
      l = [Checkpoint c; ReduceLR r; EarlyStop e; MetricLog t; CsvLog g] /\
      stdout w'
      = stdout SimOS.fresh
        ++ (esc ++ "[92m[CALLBACKS]" ++ esc ++ "[0m Initialized for run: "
            ++ "/x") ++ String newline
           (("  → Logs: " ++ TensorBoard.log_dir t) ++ String newline
           (("  → Checkpoints: " ++ ModelCheckpoint.filepath c)
            ++ String newline "")).
Proof.
  do 2 eexists. split; [reflexivity|].
  apply (@status_reports_configured_paths "/x" "val_loss" 7 _ _ _
           SimOS.makedirs SimOS.utf8 SimOS.fresh _ _ eq_refl).
Defined.

(** ** More on the mode *)

Lemma occurs_in_context (k pre m suf : string) :
  occurs_ignoring_case k m -> occurs_ignoring_case k (pre ++ m ++ suf).
Proof.
  intros (p & mid & s & -> & Hm).
  exists (pre ++ p), mid, (s ++ suf). split; [| exact Hm].
  now rewrite !append_assoc.
Qed.

(** X8. The mode does not depend on the case of letters: two monitors
    that differ only in that some of the letters [A]..[Z], [a]..[z] are
    capital in one and small in the other get the same mode. *)
Theorem mode_ignores_case (monitor other : string) :
  same_ignoring_case monitor other -> mode monitor = mode other.
Proof.
  intros H. apply same_letters_lower in H. unfold mode. now rewrite H.
Qed.

Lemma mode_ignores_case_witness :
  mode "VAL_Accuracy" = mode "val_accuracy" /\ mode "VAL_Accuracy" = "max".
Proof.
  split; [| reflexivity].
  exact (@mode_ignores_case "VAL_Accuracy" "val_accuracy" eq_refl).
Defined.

(** X9. A keyword counts wherever it occurs: when a monitor gets mode
    ['max'], so does every monitor that contains it, whatever stands
    before and after (so a loss whose name happens to contain ["acc"] is
    maximised). *)
Theorem mode_max_in_context (pre monitor suf : string) :
  mode monitor = "max" -> mode (pre ++ monitor ++ suf) = "max".
Proof.
  rewrite !mode_max_iff. unfold names_a_score.
  intros [H | [H | [H | H]]];
    [left | right; left | right; right; left | right; right; right];
    now apply occurs_in_context.
Qed.

Lemma mode_max_in_context_witness :
  mode "acc" = "max" /\ mode ("" ++ "acc" ++ "umulated_loss") = "max".
Proof.
  split; [reflexivity|].
  exact (@mode_max_in_context "" "acc" "umulated_loss" eq_refl).
Defined.

(** X10. A monitor of fewer than three bytes, the empty one included,
    always gets mode ['min']: no keyword fits in it. *)
Theorem mode_short_monitor (monitor : string) :
  String.length monitor < 3 -> mode monitor = "min".
Proof.
  intros Hlen. unfold mode, keywords. cbn [existsb].
  assert (no : forall k, 3 <= String.length k ->
                 Str.contains k (Str.lower monitor) = false).
  { intros k Hk. destruct (Str.contains k (Str.lower monitor)) eqn:E;
      [| reflexivity].
    apply contains_length in E. rewrite lower_length in E. lia. }
  rewrite !no; [reflexivity | | | |]; cbn; lia.
Qed.

Lemma mode_short_monitor_witness : mode "ac" = "min".
Proof.
  apply mode_short_monitor. cbn. lia.
Defined.

(** ** What the arguments do not influence *)

(** X11. Neither [monitor] nor [patience] has any effect outside the
    returned list: two calls that differ in them only leave the same clock,
    file system and standard output behind, and one raises an error exactly
    when the other raises it. *)
Theorem effects_ignore_monitor_and_patience
    (run_name monitor1 monitor2 : string) (patience1 patience2 : Z)
    (FS OSError PrintError : Type)
    (makedirs : string -> bool -> FS -> OSError + FS)
    (print_fails : string -> option PrintError)
    (w : world FS) :
  let p1 := standard_callbacks run_name monitor1 patience1 in
  let p2 := standard_callbacks run_name monitor2 patience2 in
  snd (run makedirs print_fails p1 w) = snd (run makedirs print_fails p2 w) /\
  forall err, fst (run makedirs print_fails p1 w) = Raised err <->
              fst (run makedirs print_fails p2 w) = Raised err.
Proof.
  intros p1 p2.
  destruct (run_independent_of_monitor makedirs print_fails run_name
              monitor1 monitor2 patience1 patience2 w) as (Hw & Hr & _).
  split; [exact Hw | exact Hr].
Qed.

(** ** The default arguments *)

(** X12. Called with no argument, on any file system and at any time,
    the list the function returns watches ["val_loss"] in mode ['min'],
    has an early-stopping patience of 7, and writes under
    [runs/default_run_<timestamp>]. *)
Theorem default_arguments
    (FS OSError PrintError : Type)
    (makedirs : string -> bool -> FS -> OSError + FS)
    (print_fails : string -> option PrintError)
    (w w' : world FS) (l : list callback) :
  run makedirs print_fails standard_callbacks_default w = (Returned l, w') ->
  let rd := "runs/default_run_" ++ datetime.strftime_Ymd_HMS (clock w) in
  exists c r e t g,
    l = [Checkpoint c; ReduceLR r; EarlyStop e; MetricLog t; CsvLog g] /\
    ModelCheckpoint.monitor c = "val_loss" /\
    ModelCheckpoint.mode c = "min" /\
    ReduceLROnPlateau.mode r = "min" /\
    EarlyStopping.mode e = "min" /\
    EarlyStopping.patience e = 7%Z /\
    ModelCheckpoint.filepath c = rd ++ "/checkpoints/best_model.keras" /\
    TensorBoard.log_dir t = rd ++ "/logs" /\
    CSVLogger.filename g = rd ++ "/default_run_training_log.csv".
Proof.
  intros H rd. unfold standard_callbacks_default in H.
  apply returned_shape in H. rewrite standard_callbacks_result in H.
  subst l. do 5 eexists. split; [reflexivity|].
  cbn [ModelCheckpoint.monitor ModelCheckpoint.mode ReduceLROnPlateau.mode
       EarlyStopping.mode EarlyStopping.patience ModelCheckpoint.filepath
       TensorBoard.log_dir CSVLogger.filename].
  rewrite checkpoint_path_eq, tensorboard_log_dir_eq, csv_path_eq
    by reflexivity.
  rewrite run_dir_relative by reflexivity.
  repeat split.
Qed.

Lemma default_arguments_witness :
  exists l w',
    SimOS.exec standard_callbacks_default SimOS.fresh = (Returned l, w') /\
    exists c r e t g,
      l = [Checkpoint c; ReduceLR r; EarlyStop e; MetricLog t; CsvLog g] /\
      ModelCheckpoint.monitor c = "val_loss" /\
      ModelCheckpoint.mode c = "min" /\
      ReduceLROnPlateau.mode r = "min" /\
      EarlyStopping.mode e = "min" /\
      EarlyStopping.patience e = 7%Z /\
      ModelCheckpoint.filepath c
      = "runs/default_run_20240101_000000/checkpoints/best_model.keras" /\
      TensorBoard.log_dir t = "runs/default_run_20240101_000000/logs" /\
      CSVLogger.filename g
      = "runs/default_run_20240101_000000/default_run_training_log.csv".
Proof.
  do 2 eexists. split; [reflexivity|].
  apply (@default_arguments _ _ _ SimOS.makedirs SimOS.utf8 SimOS.fresh
           _ _ eq_refl).
Defined.
